(** * jsontypes.ExactType: type identity, validation and value conversion

    A shallow embedding of
    [vendor/github.com/hashicorp/terraform-plugin-framework-jsontypes/jsontypes/exact_type.go]
    and of the parts of its collaborators ([tftypes], [basetypes], [diag],
    [path], [attr]) that the file calls.

    Go strings are byte sequences; they are embedded as [string], whose
    characters are bytes.  A nil slice and an empty slice are both the
    empty list.  Go's [(value, error)] results are pairs of options, the
    option being [None] for a nil interface. *)

From Stdlib Require Import Ascii String QArith.
From stdpp Require Import base decidable option list strings pretty.

Local Open Scope list_scope.
Local Open Scope string_scope.

(** ** Errors *)

(** A Go [error], known to this code only through its [Error()] text. *)
Record error : Set := errors_New { Error : string }.

#[global] Instance error_eq_dec : EqDecision error.
Proof. solve_decision. Defined.

(** The double quote. *)
Definition DQ : ascii := ascii_of_nat 34.

(** The line feed, Go's ["\n"]. *)
Definition LF : string := String.String (ascii_of_nat 10) EmptyString.

(** ** Wire values: package tftypes *)

#[local] Set Warnings "-register-all".

Module tftypes.

(** Modelled from the spec: the type tag of a wire value (tftypes.Type),
    declared outside the sources: the primitives and the collection and
    structural types. *)
Inductive Typ : Set :=
| String
| Number
| Bool
| DynamicPseudoType
| List (ElementType : Typ)
| Set_ (ElementType : Typ)
| Map (ElementType : Typ)
| Tuple (ElementTypes : list Typ)
| Object (AttributeTypes : list (string * Typ)).

(** Modelled from the spec: tftypes.Type.Is, declared outside the sources.
    A primitive is the primitive of the same name and nothing else; a
    collection or structural type is never a primitive, and is compared
    with another one by its kind. *)
Definition Is (t other : Typ) : bool :=
  match t, other with
  | String, String | Number, Number | Bool, Bool
  | DynamicPseudoType, DynamicPseudoType => true
  | List _, List _ | Set_ _, Set_ _ | Map _, Map _
  | Tuple _, Tuple _ | Object _, Object _ => true
  | _, _ => false
  end.

(** Modelled from the spec: the wire value (tftypes.Value), declared
    outside the sources: "a type tag, a known/unknown flag, and a null
    flag, plus raw data when known and non-null".  [typ] is [None] when
    the value carries no type information. *)
Inductive Value : Set :=
  mkValue (typ : option Typ) (value : Data)
with Data : Set :=
| null                                      (* the nil payload *)
| unknown                                   (* the unknown-value sentinel *)
| string_data (s : string)
| number_data (n : Q)
| bool_data (b : bool)
| list_data (elems : list Value)            (* lists, sets and tuples *)
| map_data (elems : list (string * Value)). (* maps and objects *)

Definition Type_ (val : Value) : option Typ :=
  let 'mkValue typ _ := val in typ.

Definition value (val : Value) : Data :=
  let 'mkValue _ v := val in v.

Definition IsKnown (val : Value) : bool :=
  match value val with unknown => false | _ => true end.

Definition IsNull (val : Value) : bool :=
  match value val with null => true | _ => false end.

Section As.

(** The error tftypes.Value.As reports on a value; its text is the
    library's. *)
Variable As_error : Value -> error.

(** Modelled from the spec: tftypes.Value.As into a [*string] target,
    declared outside the sources: "extract the concrete string payload",
    failing on a "type mismatch at the data level".  The first component
    is the target after the call. *)
Definition As_string (val : Value) : string * option error :=
  match value val with
  | null => ("", None)
  | string_data s => (s, None)
  | _ => ("", Some (As_error val))
  end.

End As.

End tftypes.

(** ** Generic string primitives: package basetypes *)

Module basetypes.

(** Modelled from the spec: the generic string-type descriptor
    (basetypes.StringType), declared outside the sources; it "carries no
    parameters". *)
Inductive StringType : Set := mkStringType.

(** Modelled from the spec: the generic string value
    (basetypes.StringValue), declared outside the sources: "a payload that
    is one of {concrete string, explicit null, not-yet-known/unknown}". *)
Inductive StringValue : Set :=
| NewStringNull
| NewStringUnknown
| NewStringValue (value : string).

(** Modelled from the spec: raw string extraction
    (basetypes.StringValue.ValueString): the concrete payload, the empty
    string for null and unknown. *)
Definition ValueString (s : StringValue) : string :=
  match s with
  | NewStringValue value => value
  | NewStringNull | NewStringUnknown => ""
  end.

#[global] Instance StringType_eq_dec : EqDecision StringType.
Proof. solve_decision. Defined.

#[global] Instance StringValue_eq_dec : EqDecision StringValue.
Proof. solve_decision. Defined.

End basetypes.

(** ** The two structs of the package *)

(** [type ExactType struct { basetypes.StringType }] *)
Record ExactType : Set := { StringType : basetypes.StringType }.

(** Modelled from the spec: the value holder [Exact], the counterpart of
    [ExactType] declared in another file of the package: it "wraps a
    generic string value".  The source builds it as
    [Exact{StringValue: in}]. *)
Record Exact : Set := { StringValue : basetypes.StringValue }.

#[global] Instance ExactType_eq_dec : EqDecision ExactType.
Proof. solve_decision. Defined.

#[global] Instance Exact_eq_dec : EqDecision Exact.
Proof. solve_decision. Defined.

(** ** Interface values: package attr *)

Module attr.

(** An [attr.Type] interface value, by its dynamic type.  [Other] stands
    for every other implementation, named by its Go type (a pointer
    [*jsontypes.ExactType] is one of them). *)
Inductive Type_ : Set :=
| ExactType_ (t : ExactType)
| StringType_ (t : basetypes.StringType)
| NormalizedType_ (t : basetypes.StringType)  (* jsontypes.NormalizedType *)
| Other_ (goType : string).

(** An [attr.Value] interface value, by its dynamic type. *)
Inductive Value : Set :=
| Exact_ (v : Exact)
| StringValue_ (v : basetypes.StringValue)
| Other (goType : string).

#[global] Instance Value_eq_dec : EqDecision Value.
Proof. solve_decision. Defined.

(** What [fmt]'s verb [%T] prints for a possibly nil [attr.Value]. *)
Definition GoType (v : option Value) : string :=
  match v with
  | None => "<nil>"
  | Some (Exact_ _) => "jsontypes.Exact"
  | Some (StringValue_ _) => "basetypes.StringValue"
  | Some (Other goType) => goType
  end.

End attr.

(** ** Paths and diagnostics: packages path and diag *)

Module path.

(** Modelled from the spec: "a path locating it within the overall
    configuration tree (used only for attributing diagnostics)"
    (path.Path), declared outside the sources. *)
Inductive PathStep : Set :=
| PathStepAttributeName (name : string)
| PathStepElementKeyInt (key : Z)
| PathStepElementKeyString (key : string)
| PathStepElementKeyValue (key : attr.Value).

Definition Path : Set := list PathStep.

#[global] Instance PathStep_eq_dec : EqDecision PathStep.
Proof. solve_decision. Defined.

#[global] Instance Path_eq_dec : EqDecision Path.
Proof. unfold Path. apply _. Defined.

End path.

Module diag.

Inductive Severity : Set := SeverityError | SeverityWarning.

(** Modelled from the spec: "a path-scoped, categorized error or warning
    record" (diag.Diagnostic), declared outside the sources: a severity, a
    category label ([Summary]), a free-text message ([Detail]) and the
    path it is attributed to, if any. *)
Record Diagnostic : Set := {
  Severity_ : Severity;
  Summary : string;
  Detail : string;
  Path : option path.Path
}.

#[global] Instance Severity_eq_dec : EqDecision Severity.
Proof. solve_decision. Defined.

#[global] Instance Diagnostic_eq_dec : EqDecision Diagnostic.
Proof. solve_decision. Defined.

(** [diag.Diagnostics] is a slice of diagnostics. *)
Definition Diagnostics : Set := list Diagnostic.

Definition NewAttributeErrorDiagnostic (p : path.Path) (summary detail : string)
  : Diagnostic :=
  {| Severity_ := SeverityError; Summary := summary; Detail := detail;
     Path := Some p |}.

Definition Contains (diags : Diagnostics) (d : Diagnostic) : bool :=
  bool_decide (d ∈ diags).

(** Modelled from the spec: "accumulation of path-scoped error entries";
    the framework's Append keeps a diagnostic out that the collection
    already holds. *)
Definition Append (diags : Diagnostics) (d : Diagnostic) : Diagnostics :=
  if Contains diags d then diags else (diags ++ [d])%list.

Definition AddAttributeError (diags : Diagnostics) (p : path.Path)
  (summary detail : string) : Diagnostics :=
  Append diags (NewAttributeErrorDiagnostic p summary detail).

Definition HasError (diags : Diagnostics) : bool :=
  existsb (fun d => bool_decide (Severity_ d = SeverityError)) diags.

End diag.

(** ** The generic string type's methods *)

Module StringType.

(** Modelled from the spec: the generic string-type descriptor's equality
    (basetypes.StringType.Equal), declared outside the sources: the
    descriptor "carries no parameters", so it equals every generic
    string-type descriptor and nothing else. *)
Definition Equal (t : basetypes.StringType) (o : option attr.Type_) : bool :=
  match o with
  | Some (attr.StringType_ _) => true
  | _ => false
  end.

Section ValueFromTerraform.

Variable As_error : tftypes.Value -> error.

(** Modelled from the spec: "the generic string type's own wire-to-value
    conversion" (basetypes.StringType.ValueFromTerraform), declared outside
    the sources: an unknown wire value converts to the unknown string
    value, a null one to the null string value, a concrete string to the
    value holding "that exact string"; a payload that is no string is a
    decoding error. *)
Definition ValueFromTerraform (t : basetypes.StringType) (in_ : tftypes.Value)
  : option attr.Value * option error :=
  if negb (tftypes.IsKnown in_) then
    (Some (attr.StringValue_ basetypes.NewStringUnknown), None)
  else if tftypes.IsNull in_ then
    (Some (attr.StringValue_ basetypes.NewStringNull), None)
  else
    let '(s, err) := tftypes.As_string As_error in_ in
    match err with
    | Some e => (None, Some e)
    | None => (Some (attr.StringValue_ (basetypes.NewStringValue s)), None)
    end.

End ValueFromTerraform.

End StringType.

(** ** exact_type.go *)

Module ExactType.

(** [String] returns a human readable string of the type name. *)
Definition String (t : ExactType) : string := "jsontypes.ExactType".

(** [ValueType] returns the Value type: the zero value [Exact{}], whose
    string value is the null one. *)
Definition ValueType (t : ExactType) : attr.Value :=
  attr.Exact_ {| StringValue := basetypes.NewStringNull |}.

(** [Equal] returns true if the given type is equivalent.  The type
    assertion [o.(ExactType)] holds for an interface value whose dynamic
    type is [ExactType], and for no other (nor for the nil interface). *)
Definition Equal (t : ExactType) (o : option attr.Type_) : bool :=
  match o with
  | Some (attr.ExactType_ other) =>
      StringType.Equal (StringType t) (Some (attr.StringType_ (StringType other)))
  | _ => false
  end.

Section Validate.

(** [encoding/json.Valid], the standard JSON-syntax validator, on the bytes
    of a string. *)
Variable json_Valid : string -> bool.

(** The error of a failed [tftypes.Value.As]. *)
Variable As_error : tftypes.Value -> error.

(** What [fmt]'s verb [%v] prints for a wire value. *)
Variable Value_String : tftypes.Value -> string.

Definition validation_error_detail (err : error) : string :=
  "An unexpected error was encountered trying to validate an attribute value. This is always an error in the provider. "
  ++ "Please report the following to the provider developer:" ++ LF ++ LF
  ++ Error err.

(** [Validate] implements type validation.  [%T] of [in], a
    [tftypes.Value], prints the Go type [tftypes.Value]. *)
Definition Validate (t : ExactType) (in_ : tftypes.Value) (p : path.Path)
  : diag.Diagnostics :=
  let diags : diag.Diagnostics := [] in
  match tftypes.Type_ in_ with
  | None => diags
  | Some typ =>
    if negb (tftypes.Is typ tftypes.String) then
      let err := errors_New ("expected String value, received " ++ "tftypes.Value"
                             ++ " with value: " ++ Value_String in_) in
      let diags := diag.AddAttributeError diags p
                     "JSON Exact Type Validation Error"
                     (validation_error_detail err) in
      diags
    else if negb (tftypes.IsKnown in_) || tftypes.IsNull in_ then
      diags
    else
      let '(valueString, err) := tftypes.As_string As_error in_ in
      match err with
      | Some err =>
          let diags := diag.AddAttributeError diags p
                         "JSON Exact Type Validation Error"
                         (validation_error_detail err) in
          diags
      | None =>
          if negb (json_Valid valueString) then
            let diags := diag.AddAttributeError diags p
                           "Invalid JSON String Value"
                           ("A string value was provided that is not valid JSON string format (RFC 7159)."
                            ++ LF ++ LF
                            ++ "Given Value: " ++ valueString ++ LF) in
            diags
          else
            diags
      end
  end.

End Validate.

(** [ValueFromString] returns a StringValuable type given a StringValue;
    its diagnostics are nil. *)
Definition ValueFromString (t : ExactType) (in_ : basetypes.StringValue)
  : attr.Value * diag.Diagnostics :=
  (attr.Exact_ {| StringValue := in_ |}, []).

Section ValueFromTerraform.

(** The embedded generic string type's wire-to-value conversion,
    [t.StringType.ValueFromTerraform]. *)
Variable StringType_ValueFromTerraform :
  basetypes.StringType -> tftypes.Value -> option attr.Value * option error.

(** What [fmt]'s verb [%v] prints for diagnostics. *)
Variable Diagnostics_String : diag.Diagnostics -> string.

(** [ValueFromTerraform] returns a Value given a tftypes.Value. *)
Definition ValueFromTerraform (t : ExactType) (in_ : tftypes.Value)
  : option attr.Value * option error :=
  let '(attrValue, err) := StringType_ValueFromTerraform (StringType t) in_ in
  match err with
  | Some err => (None, Some err)
  | None =>
    match attrValue with
    | Some (attr.StringValue_ stringValue) =>
        let '(stringValuable, diags) := ValueFromString t stringValue in
        if diag.HasError diags then
          (None, Some (errors_New
             ("unexpected error converting StringValue to StringValuable: "
              ++ Diagnostics_String diags)))
        else
          (Some stringValuable, None)
    | _ =>
        (None, Some (errors_New ("unexpected value type of " ++ attr.GoType attrValue)))
    end
  end.

End ValueFromTerraform.

End ExactType.

(** ** A JSON-syntax validator *)

Module rfc7159.

(** Modelled from the spec: the "JSON-syntax validity check (RFC 7159
    grammar: balanced structure, valid literals, proper string escaping, no
    trailing garbage)", which is not part of the sources: the grammar
    itself, without a limit on nesting (Go's validator, with its limit, is
    [encoding_json.Valid] below).  A recursive-descent recogniser; each
    function returns the input left after what it recognises.  The fuel of [value], [members]
    and [elements] bounds the depth of their calls, each of which follows
    the reading of a byte; [Valid] gives twice the length of the input. *)
Definition ws (c : ascii) : bool :=
  match nat_of_ascii c with 32 | 9 | 10 | 13 => true | _ => false end.

Fixpoint skip_ws (cs : list ascii) : list ascii :=
  match cs with
  | c :: cs' => if ws c then skip_ws cs' else cs
  | [] => []
  end.

Definition digit (c : ascii) : bool :=
  let n := nat_of_ascii c in ((48 <=? n) && (n <=? 57))%nat.

Definition hex (c : ascii) : bool :=
  let n := nat_of_ascii c in
  digit c || ((65 <=? n) && (n <=? 70))%nat || ((97 <=? n) && (n <=? 102))%nat.

Fixpoint digits (cs : list ascii) : list ascii :=
  match cs with
  | c :: cs' => if digit c then digits cs' else cs
  | [] => []
  end.

Definition digits1 (cs : list ascii) : option (list ascii) :=
  match cs with
  | c :: cs' => if digit c then Some (digits cs') else None
  | [] => None
  end.

Definition int (cs : list ascii) : option (list ascii) :=
  match cs with
  | c :: cs' =>
      if bool_decide (c = "0"%char) then Some cs'
      else if digit c then Some (digits cs') else None
  | [] => None
  end.

Definition frac (cs : list ascii) : option (list ascii) :=
  match cs with
  | "."%char :: cs' => digits1 cs'
  | _ => Some cs
  end.

Definition exp (cs : list ascii) : option (list ascii) :=
  match cs with
  | ("e" | "E")%char :: cs' =>
      match cs' with
      | ("+" | "-")%char :: cs'' => digits1 cs''
      | _ => digits1 cs'
      end
  | _ => Some cs
  end.

Definition number (cs : list ascii) : option (list ascii) :=
  let cs := match cs with "-"%char :: cs' => cs' | _ => cs end in
  r ← int cs; r ← frac r; exp r.

Definition escape (c : ascii) : bool :=
  match nat_of_ascii c with
  | 34 | 92 | 47 | 98 | 102 | 110 | 114 | 116 => true   (* quote \ / b f n r t *)
  | _ => false
  end.

(** The characters of a string after its opening quote, up to its closing
    quote. *)
Fixpoint chars (cs : list ascii) : option (list ascii) :=
  match cs with
  | [] => None
  | c :: cs' =>
      if bool_decide (c = DQ) then Some cs'
      else if bool_decide (c = "\"%char) then
        match cs' with
        | e :: cs'' =>
            if escape e then chars cs''
            else if bool_decide (e = "u"%char) then
              match cs'' with
              | h1 :: h2 :: h3 :: h4 :: cs''' =>
                  if hex h1 && hex h2 && hex h3 && hex h4 then chars cs''' else None
              | _ => None
              end
            else None
        | [] => None
        end
      else if (nat_of_ascii c <? 32)%nat then None
      else chars cs'
  end.

Definition literal (l : string) (cs : list ascii) : option (list ascii) :=
  let l := list_ascii_of_string l in
  if bool_decide (take (length l) cs = l) then Some (drop (length l) cs) else None.

Fixpoint value (fuel : nat) (cs : list ascii) {struct fuel} : option (list ascii) :=
  match fuel with
  | 0 => None
  | S fuel =>
      match skip_ws cs with
      | [] => None
      | c :: cs' =>
          if bool_decide (c = "{"%char) then
            match skip_ws cs' with
            | "}"%char :: r => Some r
            | cs'' => members fuel cs''
            end
          else if bool_decide (c = "["%char) then
            match skip_ws cs' with
            | "]"%char :: r => Some r
            | cs'' => elements fuel cs''
            end
          else if bool_decide (c = DQ) then chars cs'
          else if bool_decide (c = "t"%char) then literal "true" (c :: cs')
          else if bool_decide (c = "f"%char) then literal "false" (c :: cs')
          else if bool_decide (c = "n"%char) then literal "null" (c :: cs')
          else number (c :: cs')
      end
  end
with members (fuel : nat) (cs : list ascii) {struct fuel} : option (list ascii) :=
  match fuel with
  | 0 => None
  | S fuel =>
      match skip_ws cs with
      | c :: cs' =>
          if bool_decide (c = DQ) then
            r ← chars cs';
            match skip_ws r with
            | ":"%char :: r =>
                r ← value fuel r;
                match skip_ws r with
                | ","%char :: r => members fuel r
                | "}"%char :: r => Some r
                | _ => None
                end
            | _ => None
            end
          else None
      | [] => None
      end
  end
with elements (fuel : nat) (cs : list ascii) {struct fuel} : option (list ascii) :=
  match fuel with
  | 0 => None
  | S fuel =>
      r ← value fuel cs;
      match skip_ws r with
      | ","%char :: r => elements fuel r
      | "]"%char :: r => Some r
      | _ => None
      end
  end.

(** One value, surrounded by optional white space, and nothing after it. *)
Definition Valid (data : string) : bool :=
  let cs := list_ascii_of_string data in
  match value (2 * length cs + 2) cs with
  | Some r => bool_decide (skip_ws r = [])
  | None => false
  end.

End rfc7159.

(** ** Go's JSON validator: package encoding/json *)

Module encoding_json.

(** Modelled from the spec: the "standard library JSON-syntax validity
    check" that [Validate] delegates to, Go's [encoding/json.Valid], which
    is not part of the sources: the scanner of that package, a state
    machine over the bytes with a stack of the open objects and arrays, and
    the limit it puts on their nesting. *)
Inductive opcode : Set :=
| scanContinue | scanBeginLiteral | scanBeginObject | scanObjectKey
| scanObjectValue | scanEndObject | scanBeginArray | scanArrayValue
| scanEndArray | scanSkipSpace | scanEnd | scanError.

(** The entries of the parse stack. *)
Inductive parse : Set := parseObjectKey | parseObjectValue | parseArrayValue.

(** The state functions, which the scanner holds in its field [step]. *)
Inductive state : Set :=
| stateBeginValueOrEmpty | stateBeginValue | stateBeginStringOrEmpty
| stateBeginString | stateEndValue | stateEndTop
| stateInString | stateInStringEsc | stateInStringEscU | stateInStringEscU1
| stateInStringEscU12 | stateInStringEscU123
| stateNeg | state1 | state0 | stateDot | stateDot0 | stateE | stateESign | stateE0
| stateT | stateTr | stateTru | stateF | stateFa | stateFal | stateFals
| stateN | stateNu | stateNul
| stateError.

(** The scanner.  [parseState] has the innermost open object or array
    first; [err] tells whether an error was recorded. *)
Record scanner : Set := {
  step : state;
  endTop : bool;
  parseState : list parse;
  err : bool
}.

Definition set_step (s : scanner) (f : state) : scanner :=
  {| step := f; endTop := endTop s; parseState := parseState s; err := err s |}.

Definition set_parseState (s : scanner) (ps : list parse) : scanner :=
  {| step := step s; endTop := endTop s; parseState := ps; err := err s |}.

Definition set_endTop (s : scanner) : scanner :=
  {| step := step s; endTop := true; parseState := parseState s; err := err s |}.

(** The limit on the nesting depth. *)
Definition maxNestingDepth : Z := 10000.

(** [reset] prepares the scanner for use. *)
Definition reset : scanner :=
  {| step := stateBeginValue; endTop := false; parseState := []; err := false |}.

Definition isSpace (c : ascii) : bool :=
  match nat_of_ascii c with 32 | 9 | 13 | 10 => true | _ => false end.

Definition byte_is (c x : ascii) : bool := bool_decide (c = x).

Definition between (lo hi c : ascii) : bool :=
  ((nat_of_ascii lo <=? nat_of_ascii c) && (nat_of_ascii c <=? nat_of_ascii hi))%nat.

(** [error] records an error and returns [scanError]. *)
Definition error (s : scanner) : scanner * opcode :=
  ({| step := stateError; endTop := endTop s; parseState := parseState s;
      err := true |}, scanError).

(** [pushParseState] pushes a new parse state onto the parse stack; it is
    an error for the stack to grow over [maxNestingDepth]. *)
Definition pushParseState (s : scanner) (newParseState : parse)
  (successState : opcode) : scanner * opcode :=
  let s := set_parseState s (newParseState :: parseState s) in
  if (Z.of_nat (length (parseState s)) <=? maxNestingDepth)%Z
  then (s, successState)
  else error s.

(** [popParseState] pops a parse state (already obtained) off the stack
    and updates [step] accordingly.  It is called with a stack that is not
    empty. *)
Definition popParseState (s : scanner) : scanner :=
  let s := set_parseState s (tail (parseState s)) in
  match parseState s with
  | [] => set_endTop (set_step s stateEndTop)
  | _ :: _ => set_step s stateEndValue
  end.

(** [stateEndTop] is the state after finishing the top-level value: only
    space may follow. *)
Definition do_stateEndTop (s : scanner) (c : ascii) : scanner * opcode :=
  if negb (isSpace c) then (fst (error s), scanEnd) else (s, scanEnd).

(** [stateEndValue] is the state after completing a value. *)
Definition do_stateEndValue (s : scanner) (c : ascii) : scanner * opcode :=
  match parseState s with
  | [] => do_stateEndTop (set_endTop (set_step s stateEndTop)) c
  | ps :: rest =>
      if isSpace c then (set_step s stateEndValue, scanSkipSpace)
      else
        match ps with
        | parseObjectKey =>
            if byte_is c ":" then
              (set_step (set_parseState s (parseObjectValue :: rest)) stateBeginValue,
               scanObjectKey)
            else error s
        | parseObjectValue =>
            if byte_is c "," then
              (set_step (set_parseState s (parseObjectKey :: rest)) stateBeginString,
               scanObjectValue)
            else if byte_is c "}" then (popParseState s, scanEndObject)
            else error s
        | parseArrayValue =>
            if byte_is c "," then (set_step s stateBeginValue, scanArrayValue)
            else if byte_is c "]" then (popParseState s, scanEndArray)
            else error s
        end
  end.

(** [stateBeginValue] is the state at the beginning of the input and
    before a value. *)
Definition do_stateBeginValue (s : scanner) (c : ascii) : scanner * opcode :=
  if isSpace c then (s, scanSkipSpace)
  else if byte_is c "{" then
    pushParseState (set_step s stateBeginStringOrEmpty) parseObjectKey scanBeginObject
  else if byte_is c "[" then
    pushParseState (set_step s stateBeginValueOrEmpty) parseArrayValue scanBeginArray
  else if byte_is c DQ then (set_step s stateInString, scanBeginLiteral)
  else if byte_is c "-" then (set_step s stateNeg, scanBeginLiteral)
  else if byte_is c "0" then (set_step s state0, scanBeginLiteral)
  else if byte_is c "t" then (set_step s stateT, scanBeginLiteral)
  else if byte_is c "f" then (set_step s stateF, scanBeginLiteral)
  else if byte_is c "n" then (set_step s stateN, scanBeginLiteral)
  else if between "1" "9" c then (set_step s state1, scanBeginLiteral)
  else error s.

(** [stateBeginValueOrEmpty] is the state after reading an opening
    bracket. *)
Definition do_stateBeginValueOrEmpty (s : scanner) (c : ascii) : scanner * opcode :=
  if isSpace c then (s, scanSkipSpace)
  else if byte_is c "]" then do_stateEndValue s c
  else do_stateBeginValue s c.

(** [stateBeginString] is the state after reading an opening brace and a
    key-value pair, and a comma. *)
Definition do_stateBeginString (s : scanner) (c : ascii) : scanner * opcode :=
  if isSpace c then (s, scanSkipSpace)
  else if byte_is c DQ then (set_step s stateInString, scanBeginLiteral)
  else error s.

(** [stateBeginStringOrEmpty] is the state after reading an opening
    brace, whose entry is on top of the stack. *)
Definition do_stateBeginStringOrEmpty (s : scanner) (c : ascii) : scanner * opcode :=
  if isSpace c then (s, scanSkipSpace)
  else if byte_is c "}" then
    do_stateEndValue (set_parseState s (parseObjectValue :: tail (parseState s))) c
  else do_stateBeginString s c.

Definition do_stateInString (s : scanner) (c : ascii) : scanner * opcode :=
  if byte_is c DQ then (set_step s stateEndValue, scanContinue)
  else if byte_is c "\" then (set_step s stateInStringEsc, scanContinue)
  else if (nat_of_ascii c <? 32)%nat then error s
  else (s, scanContinue).

Definition do_stateInStringEsc (s : scanner) (c : ascii) : scanner * opcode :=
  if byte_is c "b" || byte_is c "f" || byte_is c "n" || byte_is c "r" || byte_is c "t"
     || byte_is c "\" || byte_is c "/" || byte_is c DQ
  then (set_step s stateInString, scanContinue)
  else if byte_is c "u" then (set_step s stateInStringEscU, scanContinue)
  else error s.

Definition isHex (c : ascii) : bool :=
  between "0" "9" c || between "a" "f" c || between "A" "F" c.

(** The four states of the digits of a [\u] escape. *)
Definition do_stateInStringEscU_ (next : state) (s : scanner) (c : ascii)
  : scanner * opcode :=
  if isHex c then (set_step s next, scanContinue) else error s.

Definition do_state0 (s : scanner) (c : ascii) : scanner * opcode :=
  if byte_is c "." then (set_step s stateDot, scanContinue)
  else if byte_is c "e" || byte_is c "E" then (set_step s stateE, scanContinue)
  else do_stateEndValue s c.

Definition do_stateNeg (s : scanner) (c : ascii) : scanner * opcode :=
  if byte_is c "0" then (set_step s state0, scanContinue)
  else if between "1" "9" c then (set_step s state1, scanContinue)
  else error s.

Definition do_state1 (s : scanner) (c : ascii) : scanner * opcode :=
  if between "0" "9" c then (set_step s state1, scanContinue)
  else do_state0 s c.

Definition do_stateDot (s : scanner) (c : ascii) : scanner * opcode :=
  if between "0" "9" c then (set_step s stateDot0, scanContinue) else error s.

Definition do_stateDot0 (s : scanner) (c : ascii) : scanner * opcode :=
  if between "0" "9" c then (s, scanContinue)
  else if byte_is c "e" || byte_is c "E" then (set_step s stateE, scanContinue)
  else do_stateEndValue s c.

Definition do_stateESign (s : scanner) (c : ascii) : scanner * opcode :=
  if between "0" "9" c then (set_step s stateE0, scanContinue) else error s.

Definition do_stateE (s : scanner) (c : ascii) : scanner * opcode :=
  if byte_is c "+" || byte_is c "-" then (set_step s stateESign, scanContinue)
  else do_stateESign s c.

Definition do_stateE0 (s : scanner) (c : ascii) : scanner * opcode :=
  if between "0" "9" c then (s, scanContinue) else do_stateEndValue s c.

(** The states inside the literals [true], [false] and [null]: [c] must be
    the byte [expected], after which the scanner goes to [next]. *)
Definition do_stateLiteral (expected : ascii) (next : state) (s : scanner)
  (c : ascii) : scanner * opcode :=
  if byte_is c expected then (set_step s next, scanContinue) else error s.

(** The call [s.step(s, c)]. *)
Definition call (s : scanner) (c : ascii) : scanner * opcode :=
  match step s with
  | stateBeginValueOrEmpty => do_stateBeginValueOrEmpty s c
  | stateBeginValue => do_stateBeginValue s c
  | stateBeginStringOrEmpty => do_stateBeginStringOrEmpty s c
  | stateBeginString => do_stateBeginString s c
  | stateEndValue => do_stateEndValue s c
  | stateEndTop => do_stateEndTop s c
  | stateInString => do_stateInString s c
  | stateInStringEsc => do_stateInStringEsc s c
  | stateInStringEscU => do_stateInStringEscU_ stateInStringEscU1 s c
  | stateInStringEscU1 => do_stateInStringEscU_ stateInStringEscU12 s c
  | stateInStringEscU12 => do_stateInStringEscU_ stateInStringEscU123 s c
  | stateInStringEscU123 => do_stateInStringEscU_ stateInString s c
  | stateNeg => do_stateNeg s c
  | state1 => do_state1 s c
  | state0 => do_state0 s c
  | stateDot => do_stateDot s c
  | stateDot0 => do_stateDot0 s c
  | stateE => do_stateE s c
  | stateESign => do_stateESign s c
  | stateE0 => do_stateE0 s c
  | stateT => do_stateLiteral "r" stateTr s c
  | stateTr => do_stateLiteral "u" stateTru s c
  | stateTru => do_stateLiteral "e" stateEndValue s c
  | stateF => do_stateLiteral "a" stateFa s c
  | stateFa => do_stateLiteral "l" stateFal s c
  | stateFal => do_stateLiteral "s" stateFals s c
  | stateFals => do_stateLiteral "e" stateEndValue s c
  | stateN => do_stateLiteral "u" stateNu s c
  | stateNu => do_stateLiteral "l" stateNul s c
  | stateNul => do_stateLiteral "l" stateEndValue s c
  | stateError => (s, scanError)
  end.

(** [eof] tells the scanner that the end of input has been reached: it is
    [scanError] unless the top-level value is complete, possibly after a
    closing space. *)
Definition eof (s : scanner) : opcode :=
  if err s then scanError
  else if endTop s then scanEnd
  else
    let s := fst (call s " ") in
    if endTop s then scanEnd else scanError.

(** The loop of [checkValid] over the bytes: the scanner after them, or
    [None] when a step returns [scanError]. *)
Fixpoint scan (s : scanner) (data : list ascii) : option scanner :=
  match data with
  | [] => Some s
  | c :: data =>
      let '(s, op) := call s c in
      match op with
      | scanError => None
      | _ => scan s data
      end
  end.

(** [checkValid] verifies that the data is valid JSON-encoded data; [true]
    stands for the nil error. *)
Definition checkValid (data : list ascii) : bool :=
  match scan reset data with
  | None => false
  | Some s => match eof s with scanError => false | _ => true end
  end.

(** [Valid] reports whether data is a valid JSON encoding. *)
Definition Valid (data : string) : bool :=
  checkValid (list_ascii_of_string data).

End encoding_json.

(** The arrays nested [n] deep: [n] opening brackets, then [n] closing
    ones. *)
Definition nested_arrays (n : nat) : string :=
  string_of_list_ascii (repeat "["%char n ++ repeat "]"%char n).

(** ** Renderings *)

Module render.

(** Renderings of wire types, wire values and diagnostics in the style of
    the libraries, and the texts of [tftypes.Value.As]'s errors, to run the
    embedding on concrete inputs.  No property below depends on them. *)
Definition quoted (s : string) : string :=
  String.String DQ s ++ String.String DQ "".

Fixpoint Typ_String (t : tftypes.Typ) : string :=
  match t with
  | tftypes.String => "tftypes.String"
  | tftypes.Number => "tftypes.Number"
  | tftypes.Bool => "tftypes.Bool"
  | tftypes.DynamicPseudoType => "tftypes.DynamicPseudoType"
  | tftypes.List e => "tftypes.List[" ++ Typ_String e ++ "]"
  | tftypes.Set_ e => "tftypes.Set[" ++ Typ_String e ++ "]"
  | tftypes.Map e => "tftypes.Map[" ++ Typ_String e ++ "]"
  | tftypes.Tuple es =>
      "tftypes.Tuple[" ++ String.concat ", " (map Typ_String es) ++ "]"
  | tftypes.Object ats =>
      "tftypes.Object["
      ++ String.concat ", "
           (map (fun at_ => (quoted (fst at_) ++ ":" ++ Typ_String (snd at_))%string) ats)
      ++ "]"
  end.

(** What [big.Float.String] prints, the format [%.10g]: the value rounded
    to ten significant decimal digits (half to even), trailing zeros
    dropped, in positional notation when the decimal exponent is at least
    [-4] and less than the number of digits kept, in scientific notation
    otherwise. *)
Definition digits_of (z : Z) : list ascii := list_ascii_of_string (pretty z).

Fixpoint drop_zeros (l : list ascii) : list ascii :=
  match l with
  | c :: l' => if bool_decide (c = "0"%char) then drop_zeros l' else l
  | [] => []
  end.

Definition trim_zeros (l : list ascii) : list ascii := rev (drop_zeros (rev l)).

(** The least [k], from [k] on, with [q <= a * 10 ^ k]. *)
Fixpoint scale_search (fuel : nat) (a q k : Z) : Z :=
  match fuel with
  | 0 => k
  | S fuel => if (q <=? a * 10 ^ k)%Z then k else scale_search fuel a q (k + 1)
  end.

(** The decimal exponent [dp] of [a / q], for positive [a] and [q]:
    [10 ^ (dp - 1) <= a / q < 10 ^ dp]. *)
Definition decimal_exponent (a q : Z) : Z :=
  if (q <=? a)%Z then Z.of_nat (length (digits_of (a / q)))
  else (1 - scale_search (length (digits_of q)) a q 1)%Z.

Definition round_half_even (num den : Z) : Z :=
  let m := (num / den)%Z in
  let r := (num mod den)%Z in
  if (den <? 2 * r)%Z then (m + 1)%Z
  else if (2 * r =? den)%Z then (if Z.even m then m else m + 1)%Z
  else m.

(** The digit of the mantissa at index [i], a zero outside of it. *)
Definition digit_at (mant : list ascii) (i : Z) : ascii :=
  if (i <? 0)%Z then "0"%char else nth (Z.to_nat i) mant "0"%char.

Definition fmtE (mant : list ascii) (exp : Z) : string :=
  string_of_list_ascii
    (digit_at mant 0
     :: match tail mant with [] => [] | more => "."%char :: more end)
  ++ "e" ++ (if (exp <? 0)%Z then "-" else "+")
  ++ (if (Z.abs exp <? 10)%Z then "0" else "") ++ pretty (Z.abs exp).

Definition fmtF (mant : list ascii) (dp prec : Z) : string :=
  (if (0 <? dp)%Z
   then string_of_list_ascii
          (map (fun i => digit_at mant (Z.of_nat i)) (seq 0 (Z.to_nat dp)))
   else "0")
  ++ (if (0 <? prec)%Z
      then String.String "."
             (string_of_list_ascii
                (map (fun i => digit_at mant (dp + Z.of_nat i)%Z)
                   (seq 0 (Z.to_nat prec))))
      else "").

Definition Q_String (n : Q) : string :=
  let a := Z.abs (Qnum n) in
  let q := Z.pos (Qden n) in
  if (a =? 0)%Z then "0"
  else
    let dp := decimal_exponent a q in
    let m := if (dp <=? 10)%Z then round_half_even (a * 10 ^ (10 - dp)) q
             else round_half_even a (q * 10 ^ (dp - 10)) in
    let '(m, dp) := if (m =? 10 ^ 10)%Z then (10 ^ 9, dp + 1)%Z else (m, dp) in
    let mant := trim_zeros (digits_of m) in
    let nd := Z.of_nat (length mant) in
    let eprec := if (nd <? 10)%Z && (dp <=? nd)%Z then nd else 10%Z in
    let exp := (dp - 1)%Z in
    (if (Qnum n <? 0)%Z then "-" else "")
    ++ (if (exp <? -4)%Z || (eprec <=? exp)%Z then fmtE mant exp
        else fmtF mant dp (Z.max ((if (dp <? 10)%Z then nd else 10) - dp) 0)).

Fixpoint Value_String (val : tftypes.Value) : string :=
  match val with
  | tftypes.mkValue None _ => "invalid typeless tftypes.Value<>"
  | tftypes.mkValue (Some typ) d =>
      Typ_String typ ++ "<"
      ++ match d with
         | tftypes.null => "null"
         | tftypes.unknown => "unknown"
         | tftypes.string_data s => quoted s
         | tftypes.number_data n => quoted (Q_String n)
         | tftypes.bool_data b => quoted (if b then "true" else "false")
         | tftypes.list_data elems =>
             String.concat ", " (map Value_String elems)
         | tftypes.map_data elems =>
             String.concat ", "
               (map (fun kv => (quoted (fst kv) ++ ":" ++ Value_String (snd kv))%string) elems)
         end
      ++ ">"
  end.

Definition As_error (val : tftypes.Value) : error :=
  match tftypes.value val with
  | tftypes.unknown => errors_New "unmarshaling unknown values is not supported"
  | _ =>
      errors_New ("can't unmarshal "
                  ++ match tftypes.Type_ val with
                     | Some typ => Typ_String typ
                     | None => "%!s(<nil>)"
                     end
                  ++ " into *string, expected string")
  end.

Definition Diagnostics_String (diags : diag.Diagnostics) : string :=
  "[" ++ String.concat " "
           (map (fun d => ("{" ++ diag.Summary d ++ " " ++ diag.Detail d ++ "}")%string) diags)
  ++ "]".

End render.

(** ** Vocabulary of the properties *)

(** [contains s t]: [t] holds [s] verbatim, as a contiguous run of bytes. *)
Definition contains (s t : string) : Prop :=
  exists pre post : string, t = pre ++ s ++ post.

(** A JSON document with quotes, for the examples: every backquote of the
    text stands for a double quote. *)
Fixpoint json (text : string) : string :=
  match text with
  | EmptyString => EmptyString
  | String.String c rest =>
      String.String (if bool_decide (c = "`"%char) then DQ else c) (json rest)
  end.

(** The wire value of type [tftypes.String] that holds the string [s]. *)
Definition string_wire (s : string) : tftypes.Value :=
  tftypes.mkValue (Some tftypes.String) (tftypes.string_data s).

(** The one value of [ExactType]. *)
Definition exact_type : ExactType :=
  {| StringType := basetypes.mkStringType |}.

(** The methods with the recogniser [rfc7159.Valid] as the JSON validator,
    the generic string type's conversion of [StringType] and the renderings
    of [render]. *)
Definition Validate_ref : ExactType -> tftypes.Value -> path.Path -> diag.Diagnostics :=
  ExactType.Validate rfc7159.Valid render.As_error render.Value_String.

Definition ValueFromTerraform_ref
  : ExactType -> tftypes.Value -> option attr.Value * option error :=
  ExactType.ValueFromTerraform (StringType.ValueFromTerraform render.As_error)
    render.Diagnostics_String.

(** A wire value of type [tftypes.Number]. *)
Definition number_wire : tftypes.Value :=
  tftypes.mkValue (Some tftypes.Number) (tftypes.number_data 1).

(** The path of an attribute named payload. *)
Definition payload_path : path.Path := [path.PathStepAttributeName "payload"].

(** A conversion that breaks the contract of the generic string type: it
    returns a value that is no generic string value. *)
Definition stray_conversion (t : basetypes.StringType) (in_ : tftypes.Value)
  : option attr.Value * option error :=
  (Some (attr.Other "basetypes.BoolValue"), None).

(** The diagnostic [d] attributed to the path [p] instead of its own. *)
Definition with_path (p : path.Path) (d : diag.Diagnostic) : diag.Diagnostic :=
  {| diag.Severity_ := diag.Severity_ d; diag.Summary := diag.Summary d;
     diag.Detail := diag.Detail d; diag.Path := Some p |}.

(** A wire value tagged as a string whose payload is a boolean: payload
    extraction into a string fails on it. *)
Definition mistyped_wire : tftypes.Value :=
  tftypes.mkValue (Some tftypes.String) (tftypes.bool_data true).

(** * Properties *)

(** ** Diagnostics *)

Lemma Append_nil (d : diag.Diagnostic) : diag.Append [] d = [d].
Proof.
  unfold diag.Append, diag.Contains.
  rewrite bool_decide_eq_false_2; [reflexivity | apply not_elem_of_nil].
Qed.

Lemma AddAttributeError_nil (p : path.Path) (summary detail : string) :
  diag.AddAttributeError [] p summary detail
  = [diag.NewAttributeErrorDiagnostic p summary detail].
Proof. apply Append_nil. Qed.

Lemma Is_String_true (typ : tftypes.Typ) :
  tftypes.Is typ tftypes.String = true <-> typ = tftypes.String.
Proof. split; [destruct typ; simpl; congruence | intros ->; reflexivity]. Qed.

Lemma contains_infix (pre s post : string) : contains s (pre ++ s ++ post).
Proof. exists pre, post. reflexivity. Qed.

Lemma append_empty_r (s : string) : s ++ "" = s.
Proof.
  induction s as [| c s IH]; [reflexivity |].
  change (String.String c (s ++ "") = String.String c s). rewrite IH. reflexivity.
Qed.

Lemma contains_suffix (pre s : string) : contains s (pre ++ s).
Proof. exists pre, "". rewrite append_empty_r. reflexivity. Qed.

(** ** Validate *)

Section ValidateProperties.

Variable json_Valid : string -> bool.
Variable As_error : tftypes.Value -> error.
Variable Value_String : tftypes.Value -> string.

Abbreviation Validate := (ExactType.Validate json_Valid As_error Value_String).

(** What [Validate] returns, branch by branch of the source. *)
Lemma Validate_no_type t in_ p :
  tftypes.Type_ in_ = None -> Validate t in_ p = [].
Proof. intros H. unfold ExactType.Validate. rewrite H. reflexivity. Qed.

Lemma Validate_not_String t in_ typ p :
  tftypes.Type_ in_ = Some typ ->
  tftypes.Is typ tftypes.String = false ->
  Validate t in_ p =
    [diag.NewAttributeErrorDiagnostic p "JSON Exact Type Validation Error"
       (ExactType.validation_error_detail
          (errors_New ("expected String value, received tftypes.Value with value: "
                       ++ Value_String in_)))].
Proof.
  intros Htyp His. unfold ExactType.Validate. rewrite Htyp, His. simpl negb.
  cbv iota. apply AddAttributeError_nil.
Qed.

Lemma Validate_string_data t in_ typ s p :
  tftypes.Type_ in_ = Some typ ->
  tftypes.Is typ tftypes.String = true ->
  tftypes.value in_ = tftypes.string_data s ->
  Validate t in_ p =
    if json_Valid s then []
    else [diag.NewAttributeErrorDiagnostic p "Invalid JSON String Value"
            ("A string value was provided that is not valid JSON string format (RFC 7159)."
             ++ LF ++ LF ++ "Given Value: " ++ s ++ LF)].
Proof.
  intros Htyp His Hval. unfold ExactType.Validate.
  rewrite Htyp, His. unfold tftypes.IsKnown, tftypes.IsNull, tftypes.As_string.
  rewrite Hval. simpl. destruct (json_Valid s); simpl; [reflexivity |].
  apply AddAttributeError_nil.
Qed.


(** C2. A known, non-null wire value of the string type that holds a
    string [s] the JSON validator rejects validates with exactly one
    diagnostic: an error of summary "Invalid JSON String Value", attributed
    to the given path, whose detail contains [s] verbatim. *)
Theorem Validate_invalid_json t in_ typ s p :
  tftypes.Type_ in_ = Some typ ->
  tftypes.Is typ tftypes.String = true ->
  tftypes.value in_ = tftypes.string_data s ->
  json_Valid s = false ->
  exists d : diag.Diagnostic,
    Validate t in_ p = [d]
    /\ diag.Severity_ d = diag.SeverityError
    /\ diag.Summary d = "Invalid JSON String Value"
    /\ diag.Path d = Some p
    /\ diag.Detail d =
         "A string value was provided that is not valid JSON string format (RFC 7159)."
         ++ LF ++ LF ++ "Given Value: " ++ s ++ LF
    /\ contains s (diag.Detail d).
Proof.
  intros Htyp His Hval Hvalid.
  rewrite (Validate_string_data t in_ typ s p Htyp His Hval), Hvalid.
  eexists. split; [reflexivity |]. simpl. repeat split.
  apply (contains_infix
           ("A string value was provided that is not valid JSON string format (RFC 7159)."
            ++ LF ++ LF ++ "Given Value: ") s LF).
Qed.

(** C3. A wire value without type information, and a wire value of the
    string type that is unknown or null, validate with no diagnostics. *)
Theorem Validate_untyped_unknown_null t in_ p :
  tftypes.Type_ in_ = None
  \/ (exists typ, tftypes.Type_ in_ = Some typ
                  /\ tftypes.Is typ tftypes.String = true
                  /\ (tftypes.IsKnown in_ = false \/ tftypes.IsNull in_ = true)) ->
  Validate t in_ p = [].
Proof.
  intros [Hnone | (typ & Htyp & His & Hstate)].
  - apply Validate_no_type, Hnone.
  - unfold ExactType.Validate. rewrite Htyp, His. simpl negb. cbv iota.
    destruct Hstate as [-> | ->]; simpl; [reflexivity |].
    rewrite orb_true_r. reflexivity.
Qed.

(** C4, as the code has it.  A wire value whose declared type is not the
    string primitive validates with exactly one diagnostic: an error at
    the given path whose summary is the fixed text "JSON Exact Type
    Validation Error" and whose detail, after a fixed preamble, reports
    "expected String value, received tftypes.Value with value: " followed
    by the rendering of the wire value. *)
Theorem Validate_wrong_type t in_ typ p :
  tftypes.Type_ in_ = Some typ ->
  tftypes.Is typ tftypes.String = false ->
  exists d : diag.Diagnostic,
    Validate t in_ p = [d]
    /\ diag.Severity_ d = diag.SeverityError
    /\ diag.Path d = Some p
    /\ diag.Summary d = "JSON Exact Type Validation Error"
    /\ diag.Detail d =
         ExactType.validation_error_detail
           (errors_New ("expected String value, received tftypes.Value with value: "
                        ++ Value_String in_))
    /\ contains ("expected String value, received tftypes.Value with value: "
                 ++ Value_String in_) (diag.Detail d).
Proof.
  intros Htyp His. rewrite (Validate_not_String t in_ typ p Htyp His).
  eexists. split; [reflexivity |]. simpl. repeat split.
  apply (contains_suffix
           ("An unexpected error was encountered trying to validate an attribute value. This is always an error in the provider. "
            ++ "Please report the following to the provider developer:" ++ LF ++ LF)).
Qed.

(** C9. [Validate] returns no diagnostic or exactly one. *)
Theorem Validate_at_most_one t in_ p :
  Validate t in_ p = [] \/ exists d : diag.Diagnostic, Validate t in_ p = [d].
Proof.
  unfold ExactType.Validate.
  destruct (tftypes.Type_ in_) as [typ |]; [| left; reflexivity].
  destruct (negb (tftypes.Is typ tftypes.String)).
  { right. rewrite AddAttributeError_nil. eexists. reflexivity. }
  destruct (negb (tftypes.IsKnown in_) || tftypes.IsNull in_); [left; reflexivity |].
  destruct (tftypes.As_string As_error in_) as [valueString [err |]].
  { right. rewrite AddAttributeError_nil. eexists. reflexivity. }
  destruct (negb (json_Valid valueString)); [| left; reflexivity].
  right. rewrite AddAttributeError_nil. eexists. reflexivity.
Qed.

End ValidateProperties.

(** ** Equal *)

(** C5. [Equal] is true exactly on the values of dynamic type [ExactType]
    whose wrapped generic string type equals this one's; it is false on
    every other value; and any two [ExactType] descriptors are equal. *)
Theorem Equal_iff_ExactType (t : ExactType) (o : option attr.Type_) :
  (ExactType.Equal t o = true <->
   exists other : ExactType,
     o = Some (attr.ExactType_ other)
     /\ StringType.Equal (StringType t)
          (Some (attr.StringType_ (StringType other))) = true)
  /\ ((forall other : ExactType, o <> Some (attr.ExactType_ other)) ->
      ExactType.Equal t o = false)
  /\ (forall t' : ExactType, ExactType.Equal t (Some (attr.ExactType_ t')) = true).
Proof.
  split; [| split].
  - split.
    + destruct o as [[other | | |] |]; simpl; try discriminate.
      intros H. exists other. split; [reflexivity | exact H].
    + intros (other & -> & H). exact H.
  - intros Hne. destruct o as [[other | | |] |]; try reflexivity.
    destruct (Hne other). reflexivity.
  - intros t'. reflexivity.
Qed.

(** ** ValueFromString *)

(** C6. [ValueFromString] returns, for every generic string value, the
    holder that wraps exactly that value, and no diagnostics. *)
Theorem ValueFromString_total (t : ExactType) (in_ : basetypes.StringValue) :
  ExactType.ValueFromString t in_ = (attr.Exact_ {| StringValue := in_ |}, [])
  /\ diag.HasError (snd (ExactType.ValueFromString t in_)) = false.
Proof. split; reflexivity. Qed.

(** ** ValueFromTerraform *)

Section ValueFromTerraformProperties.

Variable StringType_ValueFromTerraform :
  basetypes.StringType -> tftypes.Value -> option attr.Value * option error.
Variable Diagnostics_String : diag.Diagnostics -> string.

Abbreviation ValueFromTerraform :=
  (ExactType.ValueFromTerraform StringType_ValueFromTerraform Diagnostics_String).

Lemma ValueFromTerraform_StringValue t in_ stringValue :
  StringType_ValueFromTerraform (StringType t) in_
  = (Some (attr.StringValue_ stringValue), None) ->
  ValueFromTerraform t in_
  = (Some (attr.Exact_ {| StringValue := stringValue |}), None).
Proof. intros H. unfold ExactType.ValueFromTerraform. rewrite H. reflexivity. Qed.

(** C8. When the generic string type's conversion fails, [ValueFromTerraform]
    returns that very error and a nil value. *)
Theorem ValueFromTerraform_propagates_failure t in_ attrValue err :
  StringType_ValueFromTerraform (StringType t) in_ = (attrValue, Some err) ->
  ValueFromTerraform t in_ = (None, Some err).
Proof. intros H. unfold ExactType.ValueFromTerraform. rewrite H. reflexivity. Qed.

(** C10. [ValueFromString] never reports an error diagnostic, so the
    branch of [ValueFromTerraform] guarded by [diags.HasError()] is never
    taken: a generic string value always converts, and a failure of
    [ValueFromTerraform] is either the failure of the generic string type's
    conversion or the type-assertion failure on a value that is not a
    generic string value. *)
Theorem ValueFromTerraform_failure_causes t in_ :
  (forall stringValue,
     snd (ExactType.ValueFromString t stringValue) = []
     /\ diag.HasError (snd (ExactType.ValueFromString t stringValue)) = false)
  /\ (forall stringValue,
        StringType_ValueFromTerraform (StringType t) in_
        = (Some (attr.StringValue_ stringValue), None) ->
        ValueFromTerraform t in_
        = (Some (attr.Exact_ {| StringValue := stringValue |}), None))
  /\ (forall err,
        snd (ValueFromTerraform t in_) = Some err ->
        fst (ValueFromTerraform t in_) = None
        /\ (snd (StringType_ValueFromTerraform (StringType t) in_) = Some err
            \/ exists attrValue,
                 StringType_ValueFromTerraform (StringType t) in_ = (attrValue, None)
                 /\ (forall stringValue,
                       attrValue <> Some (attr.StringValue_ stringValue))
                 /\ err = errors_New ("unexpected value type of "
                                      ++ attr.GoType attrValue))).
Proof.
  split; [intros; split; reflexivity | split; [apply ValueFromTerraform_StringValue |]].
  intros err. unfold ExactType.ValueFromTerraform.
  destruct (StringType_ValueFromTerraform (StringType t) in_) as [attrValue [e |]].
  - simpl. intros [= ->]. split; [reflexivity | left; reflexivity].
  - destruct attrValue as [[v | stringValue | goType] |]; simpl;
      try discriminate; intros [= <-]; (split; [reflexivity |]);
      right; eexists; (split; [reflexivity |]); (split; [| reflexivity]);
      intros stringValue; discriminate.
Qed.

End ValueFromTerraformProperties.

Section RoundTrip.

Variable As_error : tftypes.Value -> error.
Variable Diagnostics_String : diag.Diagnostics -> string.

Abbreviation ValueFromWire :=
  (ExactType.ValueFromTerraform (StringType.ValueFromTerraform As_error)
     Diagnostics_String).

(** C7. On a wire value that holds a concrete string [s],
    [ValueFromTerraform] succeeds with the holder of the known string value
    [s]; so whenever it succeeds, the payload of what it returns is exactly
    [s], and wire values holding different strings convert to different
    typed values. *)
Theorem ValueFromTerraform_exact_payload t in_ s :
  tftypes.value in_ = tftypes.string_data s ->
  ValueFromWire t in_
  = (Some (attr.Exact_ {| StringValue := basetypes.NewStringValue s |}), None)
  /\ (forall v,
        ValueFromWire t in_ = (Some v, None) ->
        exists e : Exact,
          v = attr.Exact_ e /\ basetypes.ValueString (StringValue e) = s)
  /\ (forall in' s',
        tftypes.value in' = tftypes.string_data s' ->
        s <> s' ->
        fst (ValueFromWire t in_) <> fst (ValueFromWire t in')).
Proof.
  assert (Hconv : forall i x, tftypes.value i = tftypes.string_data x ->
            ValueFromWire t i
            = (Some (attr.Exact_ {| StringValue := basetypes.NewStringValue x |}), None)).
  { intros i x Hx. apply ValueFromTerraform_StringValue.
    unfold StringType.ValueFromTerraform, tftypes.IsKnown, tftypes.IsNull,
      tftypes.As_string.
    rewrite Hx. reflexivity. }
  intros Hs. split; [apply Hconv, Hs | split].
  - intros v. rewrite (Hconv _ _ Hs). intros [= <-].
    eexists. split; reflexivity.
  - intros in' s' Hs' Hne. rewrite (Hconv _ _ Hs), (Hconv _ _ Hs'). simpl.
    intros [= H]. exact (Hne H).
Qed.

End RoundTrip.

(** * The properties on concrete inputs *)


(** C2 on the object with an unquoted key. *)
Lemma Validate_invalid_json_witness :
  rfc7159.Valid "{a:1}" = false
  /\ exists d : diag.Diagnostic,
       Validate_ref exact_type (string_wire "{a:1}") payload_path = [d]
       /\ diag.Severity_ d = diag.SeverityError
       /\ diag.Summary d = "Invalid JSON String Value"
       /\ diag.Path d = Some payload_path
       /\ diag.Detail d =
            "A string value was provided that is not valid JSON string format (RFC 7159)."
            ++ LF ++ LF ++ "Given Value: " ++ "{a:1}" ++ LF
       /\ contains "{a:1}" (diag.Detail d).
Proof.
  split; [vm_compute; reflexivity |].
  apply (Validate_invalid_json rfc7159.Valid render.As_error render.Value_String
           exact_type _ tftypes.String "{a:1}" payload_path);
    vm_compute; reflexivity.
Defined.

(** C3 on a value without type, an unknown string and a null string. *)
Lemma Validate_untyped_unknown_null_witness :
  Validate_ref exact_type (tftypes.mkValue None (tftypes.string_data "{a:1}")) payload_path = []
  /\ Validate_ref exact_type (tftypes.mkValue (Some tftypes.String) tftypes.unknown) payload_path = []
  /\ Validate_ref exact_type (tftypes.mkValue (Some tftypes.String) tftypes.null) payload_path = [].
Proof.
  split; [| split];
    apply (Validate_untyped_unknown_null rfc7159.Valid render.As_error
             render.Value_String).
  - left. reflexivity.
  - right. exists tftypes.String. repeat split. left. reflexivity.
  - right. exists tftypes.String. repeat split. right. reflexivity.
Defined.

(** C4, as the code has it, on a wire value of type number. *)
Lemma Validate_wrong_type_witness :
  tftypes.Is tftypes.Number tftypes.String = false
  /\ exists d : diag.Diagnostic,
       Validate_ref exact_type number_wire payload_path = [d]
       /\ diag.Severity_ d = diag.SeverityError
       /\ diag.Path d = Some payload_path
       /\ diag.Summary d = "JSON Exact Type Validation Error"
       /\ diag.Detail d =
            ExactType.validation_error_detail
              (errors_New ("expected String value, received tftypes.Value with value: "
                           ++ render.Value_String number_wire))
       /\ contains ("expected String value, received tftypes.Value with value: "
                    ++ render.Value_String number_wire) (diag.Detail d).
Proof.
  split; [reflexivity |].
  apply (Validate_wrong_type rfc7159.Valid render.As_error render.Value_String
           exact_type number_wire tftypes.Number payload_path);
    reflexivity.
Defined.

(** C4 as the claim words it fails: on a wire value of type number, the
    one diagnostic does not have the summary "Validation Error". *)
Lemma Validate_wrong_type_summary_counterexample :
  ~ exists d : diag.Diagnostic,
      Validate_ref exact_type number_wire payload_path = [d]
      /\ diag.Path d = Some payload_path
      /\ diag.Summary d = "Validation Error".
Proof.
  intros (d & Hd & _ & Hsummary).
  vm_compute in Hd. injection Hd as <-. discriminate Hsummary.
Qed.

(** C5 on another custom type over the string primitive, and on
    [ExactType] itself. *)
Lemma Equal_iff_ExactType_witness :
  ExactType.Equal exact_type (Some (attr.NormalizedType_ basetypes.mkStringType)) = false
  /\ ExactType.Equal exact_type (Some (attr.ExactType_ exact_type)) = true.
Proof.
  split.
  - apply (proj1 (proj2 (Equal_iff_ExactType exact_type
                           (Some (attr.NormalizedType_ basetypes.mkStringType))))).
    intros other. discriminate.
  - apply (proj2 (proj1 (Equal_iff_ExactType exact_type
                           (Some (attr.ExactType_ exact_type))))).
    exists exact_type. split; reflexivity.
Defined.

(** C7 on two renderings of the same JSON object. *)
Lemma ValueFromTerraform_exact_payload_witness :
  ValueFromTerraform_ref exact_type (string_wire (json " { `a` : 1 } "))
  = (Some (attr.Exact_ {| StringValue := basetypes.NewStringValue (json " { `a` : 1 } ") |}),
     None)
  /\ fst (ValueFromTerraform_ref exact_type (string_wire (json " { `a` : 1 } ")))
     <> fst (ValueFromTerraform_ref exact_type (string_wire (json "{`a`:1}"))).
Proof.
  destruct (ValueFromTerraform_exact_payload render.As_error render.Diagnostics_String
              exact_type (string_wire (json " { `a` : 1 } ")) (json " { `a` : 1 } ")
              eq_refl) as (Hconv & _ & Hdiff).
  split; [exact Hconv |].
  apply (Hdiff (string_wire (json "{`a`:1}")) (json "{`a`:1}") eq_refl).
  vm_compute. discriminate.
Defined.

(** C8 on a wire value of type number, which the generic string type
    does not decode. *)
Lemma ValueFromTerraform_propagates_failure_witness :
  StringType.ValueFromTerraform render.As_error (StringType exact_type) number_wire
  = (None, Some (render.As_error number_wire))
  /\ ValueFromTerraform_ref exact_type number_wire
     = (None, Some (render.As_error number_wire)).
Proof.
  split; [reflexivity |].
  apply (ValueFromTerraform_propagates_failure
           (StringType.ValueFromTerraform render.As_error) render.Diagnostics_String
           exact_type number_wire None (render.As_error number_wire)).
  reflexivity.
Defined.

(** C10 on both causes of failure: the generic conversion's own error, and
    a value that is no generic string value. *)
Lemma ValueFromTerraform_failure_causes_witness :
  (snd (ValueFromTerraform_ref exact_type number_wire)
   = Some (render.As_error number_wire)
   /\ snd (StringType.ValueFromTerraform render.As_error (StringType exact_type)
             number_wire)
      = Some (render.As_error number_wire))
  /\ ExactType.ValueFromTerraform stray_conversion render.Diagnostics_String
       exact_type number_wire
     = (None, Some (errors_New "unexpected value type of basetypes.BoolValue")).
Proof.
  split.
  - split; [reflexivity |].
    destruct (proj2 (proj2 (ValueFromTerraform_failure_causes
                              (StringType.ValueFromTerraform render.As_error)
                              render.Diagnostics_String exact_type number_wire))
                _ eq_refl) as [_ [H | (attrValue & H & _)]];
      [exact H | discriminate H].
  - destruct (proj2 (proj2 (ValueFromTerraform_failure_causes
                              stray_conversion render.Diagnostics_String
                              exact_type number_wire))
                _ eq_refl) as [_ [H | (attrValue & H & _ & _)]];
      [discriminate H | reflexivity].
Defined.

(** ** The scenarios of the specification *)

Example scenario_valid_object :
  Validate_ref exact_type (string_wire (json "{`a`:1,`b`:[2,3]}")) payload_path = []
  /\ ValueFromTerraform_ref exact_type (string_wire (json "{`a`:1,`b`:[2,3]}"))
     = (Some (attr.Exact_
                {| StringValue := basetypes.NewStringValue (json "{`a`:1,`b`:[2,3]}") |}),
        None).
Proof. split; vm_compute; reflexivity. Qed.

Example scenario_unquoted_key :
  Validate_ref exact_type (string_wire "{a:1}") payload_path
  = [diag.NewAttributeErrorDiagnostic payload_path "Invalid JSON String Value"
       ("A string value was provided that is not valid JSON string format (RFC 7159)."
        ++ LF ++ LF ++ "Given Value: {a:1}" ++ LF)].
Proof. vm_compute. reflexivity. Qed.

Example scenario_null :
  Validate_ref exact_type (tftypes.mkValue (Some tftypes.String) tftypes.null)
    payload_path = []
  /\ ValueFromTerraform_ref exact_type
       (tftypes.mkValue (Some tftypes.String) tftypes.null)
     = (Some (attr.Exact_ {| StringValue := basetypes.NewStringNull |}), None).
Proof. split; reflexivity. Qed.

Example scenario_unknown :
  Validate_ref exact_type (tftypes.mkValue (Some tftypes.String) tftypes.unknown)
    payload_path = []
  /\ ValueFromTerraform_ref exact_type
       (tftypes.mkValue (Some tftypes.String) tftypes.unknown)
     = (Some (attr.Exact_ {| StringValue := basetypes.NewStringUnknown |}), None).
Proof. split; reflexivity. Qed.

Example rejected_strings :
  map rfc7159.Valid ["{invalid"; "{'a':1}"; "[1,2,]"; json "{`a`:1,}"; ""; "{}x"]
  = [false; false; false; false; false; false].
Proof. vm_compute. reflexivity. Qed.

Example wrong_type_detail :
  Validate_ref exact_type number_wire payload_path
  = [diag.NewAttributeErrorDiagnostic payload_path "JSON Exact Type Validation Error"
       ("An unexpected error was encountered trying to validate an attribute value. This is always an error in the provider. Please report the following to the provider developer:"
        ++ LF ++ LF
        ++ json "expected String value, received tftypes.Value with value: tftypes.Number<`1`>")].
Proof. vm_compute. reflexivity. Qed.

(** * Further properties of exact_type.go *)

(** ** Validate: the remaining branch, acceptance, and what a diagnostic is *)

Section ValidateFurther.

Variable json_Valid : string -> bool.
Variable As_error : tftypes.Value -> error.
Variable Value_String : tftypes.Value -> string.

Abbreviation Validate := (ExactType.Validate json_Valid As_error Value_String).

(** X1. When the payload of a known, non-null value of the string type
    cannot be extracted as a string, [Validate] returns exactly one
    diagnostic: the internal-error one, whose detail ends with the text of
    the extraction error. *)
Theorem Validate_extraction_failure t in_ typ p valueString err :
  tftypes.Type_ in_ = Some typ ->
  tftypes.Is typ tftypes.String = true ->
  tftypes.IsKnown in_ = true ->
  tftypes.IsNull in_ = false ->
  tftypes.As_string As_error in_ = (valueString, Some err) ->
  Validate t in_ p
  = [diag.NewAttributeErrorDiagnostic p "JSON Exact Type Validation Error"
       (ExactType.validation_error_detail err)]
  /\ contains (Error err) (ExactType.validation_error_detail err).
Proof.
  intros Htyp His Hknown Hnull Has. split.
  - unfold ExactType.Validate. rewrite Htyp, His, Hknown, Hnull, Has.
    apply AddAttributeError_nil.
  - apply (contains_suffix
             ("An unexpected error was encountered trying to validate an attribute value. This is always an error in the provider. "
              ++ "Please report the following to the provider developer:" ++ LF ++ LF)).
Qed.

(** The values [Validate] accepts. *)
Lemma Validate_nil_inv t in_ p :
  Validate t in_ p = [] ->
  tftypes.Type_ in_ = None
  \/ exists typ,
       tftypes.Type_ in_ = Some typ
       /\ tftypes.Is typ tftypes.String = true
       /\ (tftypes.IsKnown in_ = false
           \/ tftypes.IsNull in_ = true
           \/ exists s, tftypes.value in_ = tftypes.string_data s
                        /\ json_Valid s = true).
Proof.
  unfold ExactType.Validate.
  destruct (tftypes.Type_ in_) as [typ |] eqn:Htyp; [| intros _; left; reflexivity].
  destruct (tftypes.Is typ tftypes.String) eqn:His; simpl negb; cbv iota.
  2:{ rewrite AddAttributeError_nil. discriminate. }
  intros H. right. exists typ. split; [reflexivity | split; [exact His |]].
  revert H. unfold tftypes.IsKnown, tftypes.IsNull, tftypes.As_string.
  destruct (tftypes.value in_) as [| | s | n | b | elems | elems]; simpl;
    try rewrite AddAttributeError_nil; try discriminate; auto.
  destruct (json_Valid s) eqn:Hvalid; simpl; [| discriminate].
  intros _. right. right. exists s. split; [reflexivity | exact Hvalid].
Qed.

(** X2. [Validate] returns no diagnostics exactly when the value carries no
    type, or is of the string type and is unknown, null, or a string the
    JSON validator accepts. *)
Theorem Validate_accepts_iff t in_ p :
  Validate t in_ p = [] <->
  (tftypes.Type_ in_ = None
   \/ exists typ,
        tftypes.Type_ in_ = Some typ
        /\ tftypes.Is typ tftypes.String = true
        /\ (tftypes.IsKnown in_ = false
            \/ tftypes.IsNull in_ = true
            \/ exists s, tftypes.value in_ = tftypes.string_data s
                         /\ json_Valid s = true)).
Proof.
  split; [apply Validate_nil_inv |].
  intros [Hnone | (typ & Htyp & His & Hstate)].
  - apply Validate_no_type, Hnone.
  - destruct Hstate as [Hk | [Hn | (s & Hs & Hvalid)]].
    + unfold ExactType.Validate. rewrite Htyp, His, Hk. reflexivity.
    + unfold ExactType.Validate. rewrite Htyp, His, Hn. simpl negb. cbv iota.
      rewrite orb_true_r. reflexivity.
    + rewrite (Validate_string_data json_Valid As_error Value_String
                 t in_ typ s p Htyp His Hs), Hvalid.
      reflexivity.
Qed.

(** X3. Every diagnostic [Validate] returns is an error attributed to the
    given path, with one of the two fixed summaries; so the result has an
    error exactly when it is not empty. *)
Theorem Validate_diagnostics_are_errors t in_ p d :
  d ∈ Validate t in_ p ->
  diag.Severity_ d = diag.SeverityError
  /\ diag.Path d = Some p
  /\ (diag.Summary d = "JSON Exact Type Validation Error"
      \/ diag.Summary d = "Invalid JSON String Value")
  /\ diag.HasError (Validate t in_ p) = true.
Proof.
  unfold ExactType.Validate.
  destruct (tftypes.Type_ in_) as [typ |]; [| intros H; inversion H].
  destruct (negb (tftypes.Is typ tftypes.String)).
  { rewrite AddAttributeError_nil. intros ->%list_elem_of_singleton.
    repeat split. left. reflexivity. }
  destruct (negb (tftypes.IsKnown in_) || tftypes.IsNull in_);
    [intros H; inversion H |].
  destruct (tftypes.As_string As_error in_) as [valueString [err |]].
  { rewrite AddAttributeError_nil. intros ->%list_elem_of_singleton.
    repeat split. left. reflexivity. }
  destruct (negb (json_Valid valueString)); [| intros H; inversion H].
  rewrite AddAttributeError_nil. intros ->%list_elem_of_singleton.
  repeat split. right. reflexivity.
Qed.

(** X4. The user-facing diagnostic "Invalid JSON String Value" is returned
    exactly for a known string of the string type that the JSON validator
    rejects: no internal inconsistency is ever reported under it. *)
Theorem Validate_user_error_iff t in_ p :
  (exists d, Validate t in_ p = [d]
             /\ diag.Summary d = "Invalid JSON String Value") <->
  (exists typ s,
     tftypes.Type_ in_ = Some typ
     /\ tftypes.Is typ tftypes.String = true
     /\ tftypes.value in_ = tftypes.string_data s
     /\ json_Valid s = false).
Proof.
  split.
  - unfold ExactType.Validate.
    destruct (tftypes.Type_ in_) as [typ |] eqn:Htyp;
      [| intros (d & H & _); discriminate H].
    destruct (tftypes.Is typ tftypes.String) eqn:His; simpl negb; cbv iota.
    2:{ rewrite AddAttributeError_nil. intros (d & [= <-] & Hsum). discriminate Hsum. }
    unfold tftypes.IsKnown, tftypes.IsNull, tftypes.As_string.
    destruct (tftypes.value in_) as [| | s | n | b | elems | elems]; simpl;
      try rewrite AddAttributeError_nil;
      try (intros (d & H & Hsum); first [discriminate H | injection H as <-; discriminate Hsum]).
    destruct (json_Valid s) eqn:Hvalid; simpl;
      [intros (d & H & _); discriminate H |].
    intros _. exists typ, s. repeat split; [exact His | exact Hvalid].
  - intros (typ & s & Htyp & His & Hs & Hvalid).
    rewrite (Validate_string_data json_Valid As_error Value_String
               t in_ typ s p Htyp His Hs), Hvalid.
    eexists. split; reflexivity.
Qed.

(** X5. The path only attributes the diagnostics: validating the same
    value at another path gives the same diagnostics, attributed to that
    path. *)
Theorem Validate_path_only_attributes t in_ p p' :
  Validate t in_ p' = map (with_path p') (Validate t in_ p).
Proof.
  unfold ExactType.Validate.
  destruct (tftypes.Type_ in_) as [typ |]; [| reflexivity].
  destruct (negb (tftypes.Is typ tftypes.String)).
  { rewrite !AddAttributeError_nil. reflexivity. }
  destruct (negb (tftypes.IsKnown in_) || tftypes.IsNull in_); [reflexivity |].
  destruct (tftypes.As_string As_error in_) as [valueString [err |]].
  { rewrite !AddAttributeError_nil. reflexivity. }
  destruct (negb (json_Valid valueString)); [| reflexivity].
  rewrite !AddAttributeError_nil. reflexivity.
Qed.

End ValidateFurther.

(** ** ValueFromTerraform and ValueType *)

Section ConversionFurther.

Variable StringType_ValueFromTerraform :
  basetypes.StringType -> tftypes.Value -> option attr.Value * option error.
Variable Diagnostics_String : diag.Diagnostics -> string.

Abbreviation ValueFromTerraform :=
  (ExactType.ValueFromTerraform StringType_ValueFromTerraform Diagnostics_String).

(** X6. [ValueFromTerraform] returns a value or an error, never both and
    never neither, whatever the generic string type's conversion returns:
    it succeeds, with the holder of that generic string value, exactly when
    the generic conversion returns a generic string value and no error. *)
Theorem ValueFromTerraform_value_xor_error t in_ :
  (exists stringValue,
     StringType_ValueFromTerraform (StringType t) in_
     = (Some (attr.StringValue_ stringValue), None)
     /\ ValueFromTerraform t in_
        = (Some (attr.Exact_ {| StringValue := stringValue |}), None))
  \/ (exists err,
        ValueFromTerraform t in_ = (None, Some err)
        /\ forall stringValue,
             StringType_ValueFromTerraform (StringType t) in_
             <> (Some (attr.StringValue_ stringValue), None)).
Proof.
  unfold ExactType.ValueFromTerraform.
  destruct (StringType_ValueFromTerraform (StringType t) in_)
    as [attrValue [e |]].
  - right. exists e. split; [reflexivity | intros stringValue; discriminate].
  - destruct attrValue as [[v | stringValue | goType] |]; simpl.
    2:{ left. exists stringValue. split; reflexivity. }
    all: right; eexists; (split; [reflexivity | intros stringValue; discriminate]).
Qed.

(** X9. [ValueType] is a witness of what the conversions return: every
    value [ValueFromTerraform] returns, and every value [ValueFromString]
    returns, is a holder [Exact], as [ValueType]'s value is. *)
Theorem ValueType_witnesses_conversions t in_ v :
  fst (ValueFromTerraform t in_) = Some v ->
  (exists e, v = attr.Exact_ e)
  /\ (exists e, ExactType.ValueType t = attr.Exact_ e)
  /\ (forall stringValue,
        exists e, fst (ExactType.ValueFromString t stringValue) = attr.Exact_ e).
Proof.
  intros Hv. split; [| split].
  - revert Hv. unfold ExactType.ValueFromTerraform.
    destruct (StringType_ValueFromTerraform (StringType t) in_)
      as [attrValue [e |]]; [discriminate |].
    destruct attrValue as [[x | stringValue | goType] |]; simpl; try discriminate.
    intros [= <-]. eexists. reflexivity.
  - eexists. reflexivity.
  - intros stringValue. eexists. reflexivity.
Qed.

End ConversionFurther.

(** ** Validation and conversion together *)

Section ValidateThenConvert.

Variable json_Valid : string -> bool.
Variable As_error : tftypes.Value -> error.
Variable Value_String : tftypes.Value -> string.
Variable Diagnostics_String : diag.Diagnostics -> string.

Abbreviation Validate := (ExactType.Validate json_Valid As_error Value_String).
Abbreviation ValueFromWire :=
  (ExactType.ValueFromTerraform (StringType.ValueFromTerraform As_error)
     Diagnostics_String).

(** X7. A wire value that carries a type and that [Validate] accepts
    converts without error: to the unknown holder when it is unknown, to the
    null holder when it is null, and otherwise to the holder of its string,
    which the JSON validator accepts. *)
Theorem validated_value_converts t in_ typ p :
  tftypes.Type_ in_ = Some typ ->
  Validate t in_ p = [] ->
  exists stringValue,
    ValueFromWire t in_ = (Some (attr.Exact_ {| StringValue := stringValue |}), None)
    /\ match tftypes.value in_ with
       | tftypes.unknown => stringValue = basetypes.NewStringUnknown
       | tftypes.null => stringValue = basetypes.NewStringNull
       | tftypes.string_data s =>
           stringValue = basetypes.NewStringValue s /\ json_Valid s = true
       | _ => False
       end.
Proof.
  intros Htyp Hnil.
  destruct (Validate_nil_inv json_Valid As_error Value_String t in_ p Hnil)
    as [Hnone | (typ' & _ & _ & Hstate)]; [congruence |].
  revert Hstate.
  unfold ExactType.ValueFromTerraform, StringType.ValueFromTerraform,
    tftypes.IsKnown, tftypes.IsNull, tftypes.As_string.
  destruct (tftypes.value in_) as [| | s | n | b | elems | elems]; simpl;
    intros [Hk | [Hn | (s' & Hs & Hvalid)]]; try discriminate;
    try (eexists; split; reflexivity).
  injection Hs as <-. eexists. split; [reflexivity | split; [reflexivity | exact Hvalid]].
Qed.

(** X8. Conversion does not validate: a string of the string type that the
    JSON validator rejects still converts, to the holder of that very
    string, while [Validate] reports it. *)
Theorem conversion_does_not_validate t in_ typ s p :
  tftypes.Type_ in_ = Some typ ->
  tftypes.Is typ tftypes.String = true ->
  tftypes.value in_ = tftypes.string_data s ->
  json_Valid s = false ->
  ValueFromWire t in_
  = (Some (attr.Exact_ {| StringValue := basetypes.NewStringValue s |}), None)
  /\ Validate t in_ p <> [].
Proof.
  intros Htyp His Hs Hvalid. split.
  - apply ValueFromTerraform_StringValue.
    unfold StringType.ValueFromTerraform, tftypes.IsKnown, tftypes.IsNull,
      tftypes.As_string.
    rewrite Hs. reflexivity.
  - rewrite (Validate_string_data json_Valid As_error Value_String
               t in_ typ s p Htyp His Hs), Hvalid.
    discriminate.
Qed.

End ValidateThenConvert.

(** ** The further properties on concrete inputs *)

(** X1 on a value tagged as a string whose payload is a boolean. *)
Lemma Validate_extraction_failure_witness :
  tftypes.As_string render.As_error mistyped_wire
  = ("", Some (render.As_error mistyped_wire))
  /\ Validate_ref exact_type mistyped_wire payload_path
     = [diag.NewAttributeErrorDiagnostic payload_path
          "JSON Exact Type Validation Error"
          (ExactType.validation_error_detail (render.As_error mistyped_wire))]
  /\ contains (Error (render.As_error mistyped_wire))
       (ExactType.validation_error_detail (render.As_error mistyped_wire)).
Proof.
  split; [reflexivity |].
  apply (Validate_extraction_failure rfc7159.Valid render.As_error
           render.Value_String exact_type mistyped_wire tftypes.String
           payload_path "" (render.As_error mistyped_wire));
    reflexivity.
Defined.

(** X3 on the diagnostic of an invalid JSON string. *)
Lemma Validate_diagnostics_are_errors_witness :
  diag.Severity_
    (diag.NewAttributeErrorDiagnostic payload_path "Invalid JSON String Value"
       ("A string value was provided that is not valid JSON string format (RFC 7159)."
        ++ LF ++ LF ++ "Given Value: {a:1}" ++ LF))
  = diag.SeverityError
  /\ diag.HasError (Validate_ref exact_type (string_wire "{a:1}") payload_path) = true.
Proof.
  destruct (Validate_diagnostics_are_errors rfc7159.Valid render.As_error
              render.Value_String exact_type (string_wire "{a:1}") payload_path
              (diag.NewAttributeErrorDiagnostic payload_path "Invalid JSON String Value"
                 ("A string value was provided that is not valid JSON string format (RFC 7159)."
                  ++ LF ++ LF ++ "Given Value: {a:1}" ++ LF)))
    as (Hsev & _ & _ & Herr).
  - vm_compute. apply list_elem_of_here.
  - split; [exact Hsev | exact Herr].
Defined.

(** X7 on a valid JSON object and on a null string. *)
Lemma validated_value_converts_witness :
  (exists stringValue,
     ValueFromTerraform_ref exact_type (string_wire (json "{`a`:1,`b`:[2,3]}"))
     = (Some (attr.Exact_ {| StringValue := stringValue |}), None)
     /\ stringValue = basetypes.NewStringValue (json "{`a`:1,`b`:[2,3]}")
     /\ rfc7159.Valid (json "{`a`:1,`b`:[2,3]}") = true)
  /\ (exists stringValue,
        ValueFromTerraform_ref exact_type
          (tftypes.mkValue (Some tftypes.String) tftypes.null)
        = (Some (attr.Exact_ {| StringValue := stringValue |}), None)
        /\ stringValue = basetypes.NewStringNull).
Proof.
  split.
  - apply (validated_value_converts rfc7159.Valid render.As_error render.Value_String
             render.Diagnostics_String exact_type
             (string_wire (json "{`a`:1,`b`:[2,3]}")) tftypes.String payload_path);
      vm_compute; reflexivity.
  - apply (validated_value_converts rfc7159.Valid render.As_error render.Value_String
             render.Diagnostics_String exact_type
             (tftypes.mkValue (Some tftypes.String) tftypes.null) tftypes.String
             payload_path);
      reflexivity.
Defined.

(** X8 on the object with an unquoted key. *)
Lemma conversion_does_not_validate_witness :
  rfc7159.Valid "{a:1}" = false
  /\ ValueFromTerraform_ref exact_type (string_wire "{a:1}")
     = (Some (attr.Exact_ {| StringValue := basetypes.NewStringValue "{a:1}" |}), None)
  /\ Validate_ref exact_type (string_wire "{a:1}") payload_path <> [].
Proof.
  split; [vm_compute; reflexivity |].
  apply (conversion_does_not_validate rfc7159.Valid render.As_error
           render.Value_String render.Diagnostics_String exact_type
           (string_wire "{a:1}") tftypes.String "{a:1}" payload_path);
    vm_compute; reflexivity.
Defined.

(** X9 on the conversion of an unknown string. *)
Lemma ValueType_witnesses_conversions_witness :
  fst (ValueFromTerraform_ref exact_type
         (tftypes.mkValue (Some tftypes.String) tftypes.unknown))
  = Some (attr.Exact_ {| StringValue := basetypes.NewStringUnknown |})
  /\ (exists e, ExactType.ValueType exact_type = attr.Exact_ e).
Proof.
  split; [reflexivity |].
  apply (ValueType_witnesses_conversions
           (StringType.ValueFromTerraform render.As_error) render.Diagnostics_String
           exact_type (tftypes.mkValue (Some tftypes.String) tftypes.unknown)
           (attr.Exact_ {| StringValue := basetypes.NewStringUnknown |})).
  reflexivity.
Defined.

(** * The JSON grammar and Go's validator on deeply nested arrays *)

Lemma scanner_call_open (s : encoding_json.scanner) :
  encoding_json.step s = encoding_json.stateBeginValue
  \/ encoding_json.step s = encoding_json.stateBeginValueOrEmpty ->
  encoding_json.call s "["
  = encoding_json.pushParseState
      (encoding_json.set_step s encoding_json.stateBeginValueOrEmpty)
      encoding_json.parseArrayValue encoding_json.scanBeginArray.
Proof.
  intros [H | H]; unfold encoding_json.call; rewrite H; reflexivity.
Qed.

(** Opening brackets that take the parse stack over the nesting limit stop
    the scanner with an error, whatever follows them. *)
Lemma scan_open_over_limit (n : nat) :
  forall (s : encoding_json.scanner) (rest : list ascii),
    encoding_json.step s = encoding_json.stateBeginValue
    \/ encoding_json.step s = encoding_json.stateBeginValueOrEmpty ->
    (Z.of_nat (length (encoding_json.parseState s))
     <= encoding_json.maxNestingDepth
     < Z.of_nat (length (encoding_json.parseState s)) + Z.of_nat n)%Z ->
    encoding_json.scan s (repeat "["%char n ++ rest) = None.
Proof.
  induction n as [| n IH]; intros s rest Hstep Hdepth; [lia |].
  change (repeat "["%char (S n) ++ rest)%list
    with ("["%char :: (repeat "["%char n ++ rest))%list.
  unfold encoding_json.scan; fold encoding_json.scan.
  rewrite (scanner_call_open s Hstep). unfold encoding_json.pushParseState.
  set (s' := encoding_json.set_parseState _ _).
  assert (Hlen : Z.of_nat (length (encoding_json.parseState s'))
                 = (Z.of_nat (length (encoding_json.parseState s)) + 1)%Z).
  { subst s'. simpl. lia. }
  destruct (Z.leb_spec (Z.of_nat (length (encoding_json.parseState s')))
              encoding_json.maxNestingDepth) as [Hle | Hgt].
  - apply IH; [right; reflexivity | lia].
  - reflexivity.
Qed.

(** Go's validator rejects the arrays nested deeper than its limit. *)
Lemma Valid_nested_arrays_over_limit (n : nat) :
  (encoding_json.maxNestingDepth < Z.of_nat n)%Z ->
  encoding_json.Valid (nested_arrays n) = false.
Proof.
  intros Hn. unfold encoding_json.Valid, encoding_json.checkValid, nested_arrays.
  rewrite list_ascii_of_string_of_list_ascii.
  rewrite (scan_open_over_limit n encoding_json.reset);
    [reflexivity | left; reflexivity |].
  unfold encoding_json.maxNestingDepth in *. simpl. lia.
Qed.

(** The grammar's recogniser reads [n + 1] nested arrays with fuel
    [2 * n + 1]. *)
Lemma value_nested_arrays (n : nat) :
  forall (fuel : nat) (rest : list ascii),
    (2 * n + 1 <= fuel)%nat ->
    rfc7159.value fuel
      (repeat "["%char (S n) ++ repeat "]"%char (S n) ++ rest)
    = Some rest.
Proof.
  induction n as [| n IH]; intros fuel rest Hfuel.
  - destruct fuel as [| fuel]; [lia |]. reflexivity.
  - destruct fuel as [| [| fuel]]; try lia.
    change (repeat "["%char (S (S n)) ++ repeat "]"%char (S (S n)) ++ rest)%list
      with ("["%char :: (repeat "["%char (S n) ++ repeat "]"%char (S (S n)) ++ rest))%list.
    replace (repeat "]"%char (S (S n)) ++ rest)%list
      with (repeat "]"%char (S n) ++ "]"%char :: rest)%list.
    2:{ change (repeat "]"%char (S (S n))) with ("]"%char :: repeat "]"%char (S n)).
        rewrite (repeat_cons (S n)), <- app_assoc. reflexivity. }
    assert (Hin : rfc7159.value fuel
                    (repeat "["%char (S n) ++ repeat "]"%char (S n) ++ "]"%char :: rest)%list
                  = Some ("]"%char :: rest)) by (apply IH; lia).
    change (repeat "["%char (S n)) with ("["%char :: repeat "["%char n) in *.
    simpl app in *.
    unfold rfc7159.value at 1; fold rfc7159.value; fold rfc7159.elements.
    cbn [rfc7159.skip_ws rfc7159.ws]. simpl.
    unfold rfc7159.elements; fold rfc7159.value; fold rfc7159.elements.
    rewrite Hin. reflexivity.
Qed.

(** The nested arrays are valid JSON by the grammar, at every depth. *)
Lemma rfc7159_Valid_nested_arrays (n : nat) :
  (0 < n)%nat -> rfc7159.Valid (nested_arrays n) = true.
Proof.
  intros Hn. destruct n as [| n]; [lia |].
  unfold rfc7159.Valid, nested_arrays.
  rewrite list_ascii_of_string_of_list_ascii.
  replace (repeat "["%char (S n) ++ repeat "]"%char (S n))%list
    with (repeat "["%char (S n) ++ repeat "]"%char (S n) ++ [])%list.
  2:{ rewrite app_nil_r. reflexivity. }
  rewrite value_nested_arrays; [reflexivity |].
  rewrite !length_app, !repeat_length. lia.
Qed.

(** On the strings above the two validators agree. *)
Example validators_agree :
  map encoding_json.Valid
    [json "{`a`:1,`b`:[2,3]}"; json " { `a` : 1 } "; "[]"; "-12.50e+3"; "null";
     nested_arrays 64;
     "{invalid"; "{'a':1}"; "[1,2,]"; json "{`a`:1,}"; "{a:1}"; ""; "{}x"; "01"]
  = [true; true; true; true; true; true;
     false; false; false; false; false; false; false; false]
  /\ map rfc7159.Valid
       [json "{`a`:1,`b`:[2,3]}"; json " { `a` : 1 } "; "[]"; "-12.50e+3"; "null";
        nested_arrays 64;
        "{invalid"; "{'a':1}"; "[1,2,]"; json "{`a`:1,}"; "{a:1}"; ""; "{}x"; "01"]
     = [true; true; true; true; true; true;
        false; false; false; false; false; false; false; false].
Proof. split; vm_compute; reflexivity. Qed.

